(** * illusory: the geometry delta, the default options and the transition
      protocol

    A shallow embedding of [getDelta] and [DELTA_PASS_THROUGH_HANDLER]
    (delta module), of [DEFAULT_OPTIONS] (src/options.ts) and of the
    transition protocol of [illusory(from, to, options)].

    JavaScript's [number] is IEEE-754 binary64.  [getDelta] is written once,
    over the four arithmetic operators it uses, and read at two number
    types: [float] (the kernel's binary64, which is what the program runs on)
    and [xnum] (rationals extended with the two infinities and NaN, that is
    the same arithmetic without rounding), on which the algebraic properties
    are stated. *)

From Stdlib Require Import Floats QArith Qcanon.
From stdpp Require Import base numbers strings gmap.

Local Open Scope string_scope.

(** ** Numbers *)

(** The operators of [number] that the delta computation uses. *)
Class JSNumber (N : Type) : Type := {
  num_one : N;
  num_add : N -> N -> N;
  num_sub : N -> N -> N;
  num_mul : N -> N -> N;
  num_div : N -> N -> N
}.

Declare Scope js_scope.
Delimit Scope js_scope with js.
Notation "1" := num_one : js_scope.
Infix "+" := num_add : js_scope.
Infix "-" := num_sub : js_scope.
Infix "*" := num_mul : js_scope.
Infix "/" := num_div : js_scope.

(** binary64, round to nearest even: the arithmetic of the JavaScript
    engine. *)
#[export] Instance float_JSNumber : JSNumber float := {
  num_one := 1%float;
  num_add := PrimFloat.add;
  num_sub := PrimFloat.sub;
  num_mul := PrimFloat.mul;
  num_div := PrimFloat.div
}.














(** ** Data model *)

Record DOMRect (N : Type) : Type := {
  left : N;
  top : N;
  width : N;
  height : N
}.
Arguments left {N} _.
Arguments top {N} _.
Arguments width {N} _.
Arguments height {N} _.

(** The [{x, y}] pair that [parseTransformOrigin] returns. *)
Module TransformOrigin.
Record t (N : Type) : Type := mk { x : N; y : N }.
Arguments mk {N} _ _.
Arguments x {N} _.
Arguments y {N} _.
End TransformOrigin.

(** Modelled from the spec: the class [IllusoryElement] (../IllusoryElement)
    is not among the sources.  Of a snapshot the spec lists the natural
    element, the exclusively owned clone, the rect captured at construction,
    the compensating scale, and a lifecycle that ends in Detached; the
    clone's live style is what [getStyle] reads. *)
Record IllusoryElement (N : Type) : Type := {
  natural : nat;
  clone : nat;
  rect : DOMRect N;
  cloneStyle : gmap string string;
  naturalToCloneScale : N;
  detached : bool
}.
Arguments natural {N} _.
Arguments clone {N} _.
Arguments rect {N} _.
Arguments cloneStyle {N} _.
Arguments naturalToCloneScale {N} _.
Arguments detached {N} _.

(** Modelled from the spec: [getStyle(property)] reads the clone's live
    style, and returns an empty value on a Detached snapshot. *)
Definition getStyle {N : Type} (el : IllusoryElement N) (property : string) : string :=
  if detached el then "" else default "" (cloneStyle el !! property).

Record IDelta (N : Type) : Type := {
  x : N;
  y : N;
  scaleX : N;
  scaleY : N;
  inverseScaleX : N;
  inverseScaleY : N
}.
Arguments x {N} _.
Arguments y {N} _.
Arguments scaleX {N} _.
Arguments scaleY {N} _.
Arguments inverseScaleX {N} _.
Arguments inverseScaleY {N} _.

(** ** The delta module *)

Definition DeltaHandlerFunction (N : Type) : Type :=
  IDelta N -> string -> string -> string.

Definition DELTA_PASS_THROUGH_HANDLER {N : Type} : DeltaHandlerFunction N :=
  fun _ _ thisStyle => thisStyle.

Section Delta.
Context {N : Type} `{JSNumber N}.

(** [parseTransformOrigin] (../parsers/parseTransformOrigin) is not among
    the sources: it is a parameter of the development. *)
Variable parseTransformOrigin : string -> TransformOrigin.t N.

Local Open Scope js_scope.

Definition getDelta (start end_ : IllusoryElement N) : IDelta N :=
  let origin := parseTransformOrigin (getStyle start "transformOrigin") in
  let naturalToCloneScale := naturalToCloneScale start in

  let scaleX := naturalToCloneScale * width (rect end_) / width (rect start) in
  let scaleY := naturalToCloneScale * height (rect end_) / height (rect start) in

  let inverseScaleX := 1 / scaleX in
  let inverseScaleY := 1 / scaleY in

  let originDisplacementX :=
    naturalToCloneScale * (TransformOrigin.x origin / width (rect start))
    * (width (rect end_) * (1 - inverseScaleX)) in
  let originDisplacementY :=
    naturalToCloneScale * (TransformOrigin.y origin / height (rect start))
    * (height (rect end_) * (1 - inverseScaleY)) in

  let x := left (rect end_) - left (rect start) + originDisplacementX in
  let y := top (rect end_) - top (rect start) + originDisplacementY in

  {| x := x;
     y := y;
     scaleX := scaleX;
     scaleY := scaleY;
     inverseScaleX := inverseScaleX;
     inverseScaleY := inverseScaleY |}.

End Delta.

(** ** The algorithm as the specification words it *)

Section DeltaSpec.
Context {N : Type} `{JSNumber N}.
Variable parseTransformOrigin : string -> TransformOrigin.t N.

Local Open Scope js_scope.

(** Step 1, on one axis: [naturalToCloneScale(start) * end.size / start.size]. *)
Definition axisScale (k startSize endSize : N) : N := k * endSize / startSize.

(** Step 2: the inverse of a scale. *)
Definition axisInverse (scale : N) : N := 1 / scale.

(** Step 4, on one axis. *)
Definition originDisplacement (k o startSize endSize inverseScale : N) : N :=
  k * (o / startSize) * (endSize * (1 - inverseScale)).

(** Step 5, on one axis. *)
Definition axisTranslation (startPos endPos displacement : N) : N :=
  endPos - startPos + displacement.

(** Steps 1 to 5; the Y axis is the X axis with height for width, top for
    left and [origin.y] for [origin.x]. *)
Definition computeDelta_spec (start end_ : IllusoryElement N) : IDelta N :=
  let k := naturalToCloneScale start in
  let origin := parseTransformOrigin (getStyle start "transformOrigin") in
  let sx := axisScale k (width (rect start)) (width (rect end_)) in
  let sy := axisScale k (height (rect start)) (height (rect end_)) in
  let dx := originDisplacement k (TransformOrigin.x origin)
              (width (rect start)) (width (rect end_)) (axisInverse sx) in
  let dy := originDisplacement k (TransformOrigin.y origin)
              (height (rect start)) (height (rect end_)) (axisInverse sy) in
  {| x := axisTranslation (left (rect start)) (left (rect end_)) dx;
     y := axisTranslation (top (rect start)) (top (rect end_)) dy;
     scaleX := sx;
     scaleY := sy;
     inverseScaleX := axisInverse sx;
     inverseScaleY := axisInverse sy |}.

End DeltaSpec.


(** ** Calling [getDelta] on snapshots held in the object store *)

(** [getDelta] receives two object references.  Its body has no assignment,
    no property write and no call besides [getStyle] and
    [parseTransformOrigin]; a call reads the two referenced snapshots and
    hands the store back as it found it.  [start] and [end] may be the same
    reference. *)
Section Call.
Context {N : Type} `{JSNumber N}.
Variable parseTransformOrigin : string -> TransformOrigin.t N.

Definition call_getDelta (store : gmap nat (IllusoryElement N)) (start end_ : nat)
  : option (IDelta N * gmap nat (IllusoryElement N)) :=
  match store !! start, store !! end_ with
  | Some s, Some e => Some (getDelta parseTransformOrigin s e, store)
  | _, _ => None
  end.

End Call.

(** ** Where the transform puts a point *)

(** The box of [start] is anchored at [anchor]; a point [p] of its local
    coordinates is scaled about [origin] and translated by the delta. *)
Section Pivot.
Context {N : Type} `{JSNumber N}.
Local Open Scope js_scope.



End Pivot.

(** ** src/options.ts *)

#[local] Set Warnings "-register-all".

(** The values an options object holds: the object literal is a finite map
    from property names to values, so that a property that is not set is a
    key that is not in the map. *)
Inductive JSValue : Type :=
| VBoolean (b : bool)
| VNumber (n : float)
| VString (s : string)
| VArray (items : list JSValue)
| VObject (props : gmap string JSValue)
| VDocument.

Definition DEFAULT_OPTIONS : gmap string JSValue :=
  list_to_map [
    ("element", VObject (list_to_map [
       ("includeChildren", VBoolean true);
       ("ignoreTransparency", VArray [VString "img"]);
       ("naturalToCloneScale", VNumber 1%float)
     ]));
    ("zIndex", VNumber 1%float);
    ("compositeOnly", VBoolean false);
    ("duration", VString "300ms");
    ("easing", VString "ease");
    ("relativeTo", VArray [VDocument])
  ].

(** The element tier of an options object (empty when there is none). *)
Definition elementTier (options : gmap string JSValue) : gmap string JSValue :=
  match options !! "element" with
  | Some (VObject props) => props
  | _ => ∅
  end.

(** ** The transition protocol of [illusory(from, to, options)] *)

(** Modelled from the spec: the entry point [illusory] and the methods of
    [IllusoryElement] it drives are not among the sources.  The spec gives
    one invocation as a strictly sequential state machine,
    Init, Normalize, Attach, BeforeAttachHook, Flush, BeforeAnimateHook,
    ApplyDelta, AwaitCompletion, BeforeDetachHook, Cleanup, Done,
    whose Cleanup step restores the visibility of both natural elements and
    detaches both clones, and runs also when a hook's future rejected; the
    returned future settles once Cleanup is over. *)
Module Orchestrator.

Inductive Phase : Type :=
| Init
| Normalize
| Attach
| BeforeAttachHook
| Flush
| BeforeAnimateHook
| ApplyDelta
| AwaitCompletion
| BeforeDetachHook
| Cleanup
| Done.

(** How a future settles. *)
Inductive Settlement : Type :=
| Resolved
| Rejected (reason : string).

(** What the caller and the browser decide during one invocation: how the
    future of each hook settles (a hook that is absent, or that returns no
    future, counts as resolved), and whether the completion signal arrives
    before the timeout guard fires.  [beforeDetach] is handed the
    [canceled] flag. *)
Record Environment : Type := {
  beforeAttach : Settlement;
  beforeAnimate : Settlement;
  beforeDetach : bool -> Settlement;
  completionSignal : bool
}.

(** The part of the document the protocol touches. *)
Record Document : Type := {
  fromNaturalVisible : bool;
  toNaturalVisible : bool;
  fromCloneAttached : bool;
  toCloneAttached : bool
}.

Record State : Type := {
  phase : Phase;
  document : Document;
  canceled : bool;
  failure : option string;
  returned : option Settlement
}.

Definition attachClones (_ : Document) : Document :=
  {| fromNaturalVisible := false; toNaturalVisible := false;
     fromCloneAttached := true; toCloneAttached := true |}.

Definition cleanup (_ : Document) : Document :=
  {| fromNaturalVisible := true; toNaturalVisible := true;
     fromCloneAttached := false; toCloneAttached := false |}.

Definition goto (p : Phase) (s : State) : State :=
  {| phase := p; document := document s; canceled := canceled s;
     failure := failure s; returned := returned s |}.

(** A hook's future has settled: go on with [next], or remember the
    rejection and go to Cleanup. *)
Definition afterHook (outcome : Settlement) (next : Phase) (s : State) : State :=
  match outcome with
  | Resolved => goto next s
  | Rejected reason =>
      {| phase := Cleanup; document := document s; canceled := canceled s;
         failure := Some reason; returned := returned s |}
  end.

Definition step (env : Environment) (s : State) : State :=
  match phase s with
  | Init => goto Normalize s
  | Normalize => goto Attach s
  | Attach =>
      {| phase := BeforeAttachHook; document := attachClones (document s);
         canceled := canceled s; failure := failure s; returned := returned s |}
  | BeforeAttachHook => afterHook (beforeAttach env) Flush s
  | Flush => goto BeforeAnimateHook s
  | BeforeAnimateHook => afterHook (beforeAnimate env) ApplyDelta s
  | ApplyDelta => goto AwaitCompletion s
  | AwaitCompletion =>
      {| phase := BeforeDetachHook; document := document s;
         canceled := negb (completionSignal env);
         failure := failure s; returned := returned s |}
  | BeforeDetachHook => afterHook (beforeDetach env (canceled s)) Cleanup s
  | Cleanup =>
      {| phase := Done; document := cleanup (document s);
         canceled := canceled s; failure := failure s;
         returned := Some (match failure s with
                           | Some reason => Rejected reason
                           | None => Resolved
                           end) |}
  | Done => s
  end.

Definition initial (doc : Document) : State :=
  {| phase := Init; document := doc; canceled := false;
     failure := None; returned := None |}.

Fixpoint run (env : Environment) (steps : nat) (s : State) : State :=
  match steps with
  | O => s
  | S n => run env n (step env s)
  end.

(** One invocation: the ten transitions from Init to Done. *)
Definition illusory (env : Environment) (doc : Document) : State :=
  run env 10 (initial doc).

(** Both natural elements are visible and no clone is attached. *)
Definition cleaned (doc : Document) : bool :=
  fromNaturalVisible doc && toNaturalVisible doc
  && negb (fromCloneAttached doc) && negb (toCloneAttached doc).

(** The rejection, if any, of the first hook future that rejects among
    those the invocation awaits. *)
Definition hookRejection (env : Environment) : option string :=
  match beforeAttach env with
  | Rejected reason => Some reason
  | Resolved =>
      match beforeAnimate env with
      | Rejected reason => Some reason
      | Resolved =>
          match beforeDetach env (negb (completionSignal env)) with
          | Rejected reason => Some reason
          | Resolved => None
          end
      end
  end.

End Orchestrator.

(** ** Sample inputs *)

(** A snapshot with the given rect and scale, whose clone declares the given
    transform-origin. *)
Definition snapshot {N : Type} (id : nat) (r : DOMRect N) (transformOrigin : string)
    (k : N) : IllusoryElement N :=
  {| natural := id; clone := S id; rect := r;
     cloneStyle := {[ "transformOrigin" := transformOrigin ]};
     naturalToCloneScale := k; detached := false |}.


Definition startRect64 : DOMRect float :=
  {| left := 0; top := 0; width := 100; height := 50 |}%float.
Definition endRect64 : DOMRect float :=
  {| left := 200; top := 100; width := 50; height := 25 |}%float.

(** A parser stub for the samples: it knows one style string. *)
Definition sampleParser (style : string) : TransformOrigin.t float :=
  if String.eqb style "50px 25px"
  then TransformOrigin.mk 50%float 25%float
  else TransformOrigin.mk 0%float 0%float.

(** Two stores whose snapshots agree on what [getDelta] reads and differ in
    the rest: references, element identities, other style properties, the
    scale and the lifecycle state of [end]. *)
Definition sampleStore1 : gmap nat (IllusoryElement float) :=
  {[ 1%nat := snapshot 1 startRect64 "50px 25px" 1%float;
     2%nat := snapshot 3 endRect64 "25px 12.5px" 1%float ]}.

Definition sampleStore2 : gmap nat (IllusoryElement float) :=
  {[ 7%nat := {| natural := 40; clone := 41; rect := startRect64;
                 cloneStyle := {[ "transformOrigin" := "50px 25px"; "opacity" := "0.5" ]};
                 naturalToCloneScale := 1%float; detached := false |};
     8%nat := {| natural := 50; clone := 51; rect := endRect64;
                 cloneStyle := {[ "transformOrigin" := "0px 0px" ]};
                 naturalToCloneScale := 4%float; detached := true |} ]}.

(** An invocation whose [beforeAnimate] hook rejects. *)
Definition sampleEnvironment : Orchestrator.Environment :=
  {| Orchestrator.beforeAttach := Orchestrator.Resolved;
     Orchestrator.beforeAnimate := Orchestrator.Rejected "boom";
     Orchestrator.beforeDetach := fun _ => Orchestrator.Resolved;
     Orchestrator.completionSignal := true |}.

Definition sampleDocument : Orchestrator.Document :=
  {| Orchestrator.fromNaturalVisible := true; Orchestrator.toNaturalVisible := true;
     Orchestrator.fromCloneAttached := false; Orchestrator.toCloneAttached := false |}.


(** * Properties *)

(** ** binary64: division by zero *)

Lemma is_zero_inv (w : float) :
  is_zero w = true -> exists s, Prim2SF w = S754_zero s.
Proof.
  unfold is_zero. rewrite FloatAxioms.eqb_spec.
  change (Prim2SF zero) with (S754_zero false).
  destruct (Prim2SF w) as [s|s| |s m e]; unfold SFeqb; simpl;
    try discriminate; [eauto | |]; destruct s; discriminate.
Qed.

Lemma is_nan_intro (v : float) : Prim2SF v = S754_nan -> is_nan v = true.
Proof. unfold is_nan. rewrite FloatAxioms.eqb_spec. intros ->. reflexivity. Qed.

Lemma is_infinity_intro (v : float) (s : bool) :
  Prim2SF v = S754_infinity s -> is_infinity v = true.
Proof.
  unfold is_infinity. rewrite FloatAxioms.eqb_spec, abs_spec. intros ->. reflexivity.
Qed.

Lemma is_zero_intro (v : float) (s : bool) :
  Prim2SF v = S754_zero s -> is_zero v = true.
Proof.
  unfold is_zero. rewrite FloatAxioms.eqb_spec. intros ->. destruct s; reflexivity.
Qed.

(** Whatever the dividend, a quotient by zero is NaN or an infinity. *)
Lemma div_zero_cases (a w : float) :
  is_zero w = true ->
  Prim2SF (a / w) = S754_nan \/ exists s, Prim2SF (a / w) = S754_infinity s.
Proof.
  intros [s Hw]%is_zero_inv.
  rewrite div_spec, Hw.
  destruct (Prim2SF a) as [sa|sa| |sa ma ea]; simpl; eauto.
Qed.

Lemma div_zero_not_finite (a w : float) :
  is_zero w = true -> is_finite (a / w) = false.
Proof.
  intros Hw. unfold is_finite.
  destruct (div_zero_cases a w Hw) as [Hn | [s Hi]].
  - rewrite (is_nan_intro _ Hn). reflexivity.
  - rewrite (is_infinity_intro _ _ Hi), orb_true_r. reflexivity.
Qed.

(** The inverse of such a quotient is a zero or NaN, never 1. *)
Lemma inverse_div_zero (a w : float) :
  is_zero w = true ->
  is_zero (1 / (a / w)) || is_nan (1 / (a / w)) = true.
Proof.
  intros Hw. apply orb_true_iff.
  destruct (div_zero_cases a w Hw) as [Hn | [s Hi]].
  - right. apply is_nan_intro. rewrite div_spec, Hn. reflexivity.
  - left. apply (is_zero_intro _ s). rewrite div_spec, Hi. reflexivity.
Qed.

(** ** Exact arithmetic on finite values *)










(** ** [getDelta] against the specification's algorithm *)

(** C1. [getDelta] returns exactly the formulas of the specification: on each
    axis the scale is [naturalToCloneScale * end size / start size], the
    inverse scale is [1 / scale], and the translation is
    [end position - start position + origin displacement], where the origin
    displacement is
    [naturalToCloneScale * (origin / start size) * (end size * (1 - inverse scale))]
    and the origin is the parsed transform-origin of [start].  It holds at
    every number type, whatever the rects (so in particular when their
    widths and heights are not zero). *)
Theorem getDelta_computes_spec_formulas
    {N : Type} `{JSNumber N} (parseTransformOrigin : string -> TransformOrigin.t N)
    (start end_ : IllusoryElement N) :
  let d := getDelta parseTransformOrigin start end_ in
  let k := naturalToCloneScale start in
  let origin := parseTransformOrigin (getStyle start "transformOrigin") in
  d = computeDelta_spec parseTransformOrigin start end_
  /\ scaleX d = (k * width (rect end_) / width (rect start))%js
  /\ scaleY d = (k * height (rect end_) / height (rect start))%js
  /\ inverseScaleX d = (1 / scaleX d)%js
  /\ inverseScaleY d = (1 / scaleY d)%js
  /\ x d = (left (rect end_) - left (rect start)
            + k * (TransformOrigin.x origin / width (rect start))
              * (width (rect end_) * (1 - inverseScaleX d)))%js
  /\ y d = (top (rect end_) - top (rect start)
            + k * (TransformOrigin.y origin / height (rect start))
              * (height (rect end_) * (1 - inverseScaleY d)))%js.
Proof.
  unfold getDelta, computeDelta_spec, axisTranslation, originDisplacement,
    axisInverse, axisScale.
  cbn. repeat split.
Qed.

(** C8. The default handler returns the current style unchanged, whatever
    the delta and the computed delta style. *)
Theorem DELTA_PASS_THROUGH_HANDLER_identity
    {N : Type} (delta : IDelta N) (deltaStyle thisStyle : string) :
  DELTA_PASS_THROUGH_HANDLER delta deltaStyle thisStyle = thisStyle.
Proof. reflexivity. Qed.

(** ** The concrete scenario, in binary64 *)

(** C4. Start rect [{left:0, top:0, width:100, height:50}], end rect
    [{left:200, top:100, width:50, height:25}], a transform-origin that
    parses to [(50, 25)] and [naturalToCloneScale = 1] give
    [scaleX = scaleY = 0.5], [inverseScaleX = inverseScaleY = 2], [x = 175]
    and [y = 87.5], in the program's own binary64 arithmetic. *)
Theorem getDelta_concrete_scenario
    (parseTransformOrigin : string -> TransformOrigin.t float)
    (start end_ : IllusoryElement float) :
  rect start = {| left := 0; top := 0; width := 100; height := 50 |}%float ->
  rect end_ = {| left := 200; top := 100; width := 50; height := 25 |}%float ->
  parseTransformOrigin (getStyle start "transformOrigin")
    = TransformOrigin.mk 50%float 25%float ->
  naturalToCloneScale start = 1%float ->
  getDelta parseTransformOrigin start end_
  = {| x := 175; y := 87.5; scaleX := 0.5; scaleY := 0.5;
       inverseScaleX := 2; inverseScaleY := 2 |}%float.
Proof.
  intros Hs He Ho Hk. unfold getDelta. rewrite Hs, He, Ho, Hk. reflexivity.
Qed.

Lemma getDelta_concrete_scenario_witness :
  getDelta (fun _ => TransformOrigin.mk 50%float 25%float)
    (snapshot 1 {| left := 0; top := 0; width := 100; height := 50 |}%float "50px 25px" 1%float)
    (snapshot 3 {| left := 200; top := 100; width := 50; height := 25 |}%float "25px 12.5px" 1%float)
  = {| x := 175; y := 87.5; scaleX := 0.5; scaleY := 0.5;
       inverseScaleX := 2; inverseScaleY := 2 |}%float.
Proof.
  apply getDelta_concrete_scenario; reflexivity.
Defined.

(** ** Degenerate start rects *)

(** C2, as stated, fails: with a start rect of width 0 and height 0 the
    scales are [Infinity] and the inverse scales are [0], not 1. *)
Lemma getDelta_zero_size_not_clamped_counterexample :
  let start := snapshot 1 {| left := 0; top := 0; width := 0; height := 0 |}%float
                 "0px 0px" 1%float in
  let end_ := snapshot 3 {| left := 200; top := 100; width := 50; height := 25 |}%float
                "25px 12.5px" 1%float in
  let d := getDelta (fun _ => TransformOrigin.mk 0%float 0%float) start end_ in
  is_zero (width (rect start)) = true
  /\ is_zero (height (rect start)) = true
  /\ scaleX d = infinity /\ inverseScaleX d = 0%float
  /\ scaleY d = infinity /\ inverseScaleY d = 0%float
  /\ scaleX d <> 1%float /\ inverseScaleX d <> 1%float
  /\ is_finite (scaleX d) = false /\ is_nan (x d) = true.
Proof.
  cbv zeta. repeat split; try reflexivity.
  - intros E. apply (f_equal is_infinity) in E. discriminate E.
  - intros E. apply (f_equal is_zero) in E. discriminate E.
Qed.

(** C2, amended.  [getDelta] has no clamp.  When [start.rect.width] is zero
    (either zero of binary64), [scaleX] is the quotient by zero, which is
    never finite (an infinity or NaN), and [inverseScaleX] is a zero or NaN;
    the same holds of [scaleY] and [inverseScaleY] when [start.rect.height]
    is zero. *)
Theorem getDelta_zero_size_not_finite
    (parseTransformOrigin : string -> TransformOrigin.t float)
    (start end_ : IllusoryElement float) :
  let d := getDelta parseTransformOrigin start end_ in
  (is_zero (width (rect start)) = true ->
     is_finite (scaleX d) = false
     /\ is_zero (inverseScaleX d) || is_nan (inverseScaleX d) = true)
  /\ (is_zero (height (rect start)) = true ->
     is_finite (scaleY d) = false
     /\ is_zero (inverseScaleY d) || is_nan (inverseScaleY d) = true).
Proof.
  cbv zeta. unfold getDelta. cbn.
  split; intros Hz; split;
    first [ by apply div_zero_not_finite | by apply inverse_div_zero ].
Qed.

Lemma getDelta_zero_size_not_finite_witness :
  let start := snapshot 1 {| left := 0; top := 0; width := 0; height := (-0) |}%float
                 "0px 0px" 1%float in
  let end_ := snapshot 3 {| left := 200; top := 100; width := 50; height := 0 |}%float
                "25px 0px" 1%float in
  let d := getDelta (fun _ => TransformOrigin.mk 0%float 0%float) start end_ in
  (is_finite (scaleX d) = false
   /\ is_zero (inverseScaleX d) || is_nan (inverseScaleX d) = true)
  /\ (is_finite (scaleY d) = false
   /\ is_zero (inverseScaleY d) || is_nan (inverseScaleY d) = true).
Proof.
  cbv zeta.
  pose proof (getDelta_zero_size_not_finite
                (fun _ => TransformOrigin.mk 0%float 0%float)
                (snapshot 1 {| left := 0; top := 0; width := 0; height := (-0) |}%float
                   "0px 0px" 1%float)
                (snapshot 3 {| left := 200; top := 100; width := 50; height := 0 |}%float
                   "25px 0px" 1%float)) as [HX HY].
  split; [apply HX | apply HY]; reflexivity.
Defined.

(** ** Exact arithmetic: inverse consistency, finiteness, pivot *)











(** ** Purity of [getDelta] *)

(** C9.  Two calls of [getDelta], in any two stores, on snapshots that agree
    on the rects of [start] and [end], on the transform-origin style of
    [start] and on the [naturalToCloneScale] of [start], return the same
    delta, whatever else the snapshots and the stores hold; and each call
    leaves its store, hence both snapshots, as they were. *)
Theorem getDelta_pure
    {N : Type} `{JSNumber N} (parseTransformOrigin : string -> TransformOrigin.t N)
    (store1 store2 : gmap nat (IllusoryElement N))
    (start1 end1 start2 end2 : nat) (s1 e1 s2 e2 : IllusoryElement N) :
  store1 !! start1 = Some s1 -> store1 !! end1 = Some e1 ->
  store2 !! start2 = Some s2 -> store2 !! end2 = Some e2 ->
  rect s1 = rect s2 -> rect e1 = rect e2 ->
  getStyle s1 "transformOrigin" = getStyle s2 "transformOrigin" ->
  naturalToCloneScale s1 = naturalToCloneScale s2 ->
  exists d : IDelta N,
    call_getDelta parseTransformOrigin store1 start1 end1 = Some (d, store1)
    /\ call_getDelta parseTransformOrigin store2 start2 end2 = Some (d, store2).
Proof.
  intros Hs1 He1 Hs2 He2 Hrs Hre Ho Hk.
  exists (getDelta parseTransformOrigin s1 e1).
  unfold call_getDelta. rewrite Hs1, He1, Hs2, He2.
  split; [reflexivity|].
  do 2 f_equal. unfold getDelta. by rewrite Hrs, Hre, Ho, Hk.
Qed.

Lemma getDelta_pure_witness :
  exists d : IDelta float,
    call_getDelta sampleParser sampleStore1 1 2 = Some (d, sampleStore1)
    /\ call_getDelta sampleParser sampleStore2 7 8 = Some (d, sampleStore2).
Proof.
  eapply getDelta_pure; reflexivity.
Defined.

(** ** The default options *)

(** C10.  [DEFAULT_OPTIONS] sets exactly six properties: [element],
    [zIndex = 1], [compositeOnly = false], [duration = '300ms'],
    [easing = 'ease'] and [relativeTo = [document]]; its element tier sets
    exactly three: [includeChildren = true], [ignoreTransparency = ['img']]
    and [naturalToCloneScale = 1].  So [preserveDataAttributes],
    [processClone], [attachImmediately], [deltaHandlers] and the hooks are
    absent. *)
Theorem DEFAULT_OPTIONS_exact :
  dom DEFAULT_OPTIONS
  = ({[ "element"; "zIndex"; "compositeOnly"; "duration"; "easing"; "relativeTo" ]}
     : gset string)
  /\ DEFAULT_OPTIONS !! "zIndex" = Some (VNumber 1%float)
  /\ DEFAULT_OPTIONS !! "compositeOnly" = Some (VBoolean false)
  /\ DEFAULT_OPTIONS !! "duration" = Some (VString "300ms")
  /\ DEFAULT_OPTIONS !! "easing" = Some (VString "ease")
  /\ DEFAULT_OPTIONS !! "relativeTo" = Some (VArray [VDocument])
  /\ DEFAULT_OPTIONS !! "element" = Some (VObject (elementTier DEFAULT_OPTIONS))
  /\ dom (elementTier DEFAULT_OPTIONS)
     = ({[ "includeChildren"; "ignoreTransparency"; "naturalToCloneScale" ]} : gset string)
  /\ elementTier DEFAULT_OPTIONS !! "includeChildren" = Some (VBoolean true)
  /\ elementTier DEFAULT_OPTIONS !! "ignoreTransparency" = Some (VArray [VString "img"])
  /\ elementTier DEFAULT_OPTIONS !! "naturalToCloneScale" = Some (VNumber 1%float)
  /\ elementTier DEFAULT_OPTIONS !! "preserveDataAttributes" = None
  /\ elementTier DEFAULT_OPTIONS !! "processClone" = None
  /\ elementTier DEFAULT_OPTIONS !! "attachImmediately" = None
  /\ DEFAULT_OPTIONS !! "deltaHandlers" = None
  /\ DEFAULT_OPTIONS !! "beforeAttach" = None
  /\ DEFAULT_OPTIONS !! "beforeAnimate" = None
  /\ DEFAULT_OPTIONS !! "beforeDetach" = None.
Proof.
  repeat split; reflexivity.
Qed.

(** ** Cleanup in the transition protocol *)

Ltac settle_run Hbd :=
  cbn; rewrite ?Hbd; cbn;
  first [ discriminate | intros [= <-]; repeat split ].

Lemma run_Done (env : Orchestrator.Environment) (n : nat) (s : Orchestrator.State) :
  Orchestrator.phase s = Orchestrator.Done -> Orchestrator.run env n s = s.
Proof.
  intros Hs. induction n as [|n IH]; [reflexivity|].
  cbn [Orchestrator.run]. unfold Orchestrator.step. by rewrite Hs.
Qed.

(** C7.  Whatever the hooks' futures do and whether or not the completion
    signal arrives, one invocation ends in Done with both natural elements
    visible and both clones detached; the returned future rejects exactly
    when a hook's future rejected (with that hook's reason) and resolves
    otherwise; and at no point of the run is the returned future rejected
    before Cleanup has restored the document. *)
Theorem illusory_cleanup_always_runs
    (env : Orchestrator.Environment) (doc : Orchestrator.Document) :
  let final := Orchestrator.illusory env doc in
  Orchestrator.phase final = Orchestrator.Done
  /\ Orchestrator.cleaned (Orchestrator.document final) = true
  /\ Orchestrator.returned final
     = Some (match Orchestrator.hookRejection env with
             | Some reason => Orchestrator.Rejected reason
             | None => Orchestrator.Resolved
             end)
  /\ forall (n : nat) (reason : string),
       let s := Orchestrator.run env n (Orchestrator.initial doc) in
       Orchestrator.returned s = Some (Orchestrator.Rejected reason) ->
       Orchestrator.phase s = Orchestrator.Done
       /\ Orchestrator.cleaned (Orchestrator.document s) = true
       /\ Orchestrator.hookRejection env = Some reason.
Proof.
  destruct env as [ba bn bd cs].
  unfold Orchestrator.illusory, Orchestrator.hookRejection.
  cbn [Orchestrator.beforeAttach Orchestrator.beforeAnimate Orchestrator.beforeDetach
       Orchestrator.completionSignal].
  destruct (bd (negb cs)) as [|r3] eqn:Hbd;
    destruct ba as [|r1], bn as [|r2], cs; cbn [negb] in Hbd |- *;
    (split; [| split; [| split]]);
    try (cbn; rewrite ?Hbd; reflexivity);
    intros n reason;
    do 10 (destruct n as [|n]; [by settle_run Hbd |]);
    cbn; rewrite ?Hbd; cbn; rewrite run_Done by reflexivity; by settle_run Hbd.
Qed.

Lemma illusory_cleanup_always_runs_witness :
  Orchestrator.returned (Orchestrator.illusory sampleEnvironment sampleDocument)
  = Some (Orchestrator.Rejected "boom")
  /\ Orchestrator.phase (Orchestrator.run sampleEnvironment 7
                           (Orchestrator.initial sampleDocument)) = Orchestrator.Done
  /\ Orchestrator.cleaned
       (Orchestrator.document (Orchestrator.run sampleEnvironment 7
                                 (Orchestrator.initial sampleDocument))) = true
  /\ Orchestrator.hookRejection sampleEnvironment = Some "boom".
Proof.
  destruct (illusory_cleanup_always_runs sampleEnvironment sampleDocument)
    as (_ & _ & Hreturned & Honly).
  split; [exact Hreturned|].
  apply (Honly 7%nat "boom"). reflexivity.
Defined.

(** * Further properties of [getDelta] *)

(** ** binary64: how NaN and the infinities travel through the operators *)

Lemma SFeqb_irrefl_inv (s : spec_float) : SFeqb s s = false -> s = S754_nan.
Proof.
  destruct s as [b|b| |b m e]; unfold SFeqb; simpl; try (destruct b; discriminate);
    [reflexivity|].
  destruct b; rewrite Z.compare_refl, Pos.compare_refl; simpl; discriminate.
Qed.

Lemma is_nan_inv (v : float) : is_nan v = true -> Prim2SF v = S754_nan.
Proof.
  unfold is_nan. rewrite FloatAxioms.eqb_spec. intros Hv%negb_true_iff.
  by apply SFeqb_irrefl_inv.
Qed.

Lemma is_infinity_inv (v : float) :
  is_infinity v = true -> exists s, Prim2SF v = S754_infinity s.
Proof.
  unfold is_infinity. rewrite FloatAxioms.eqb_spec, abs_spec.
  change (Prim2SF infinity) with (S754_infinity false).
  destruct (Prim2SF v) as [b|b| |b m e]; unfold SFeqb; simpl; try discriminate.
  eauto.
Qed.

Lemma not_finite_inv (v : float) :
  is_finite v = false ->
  Prim2SF v = S754_nan \/ exists s, Prim2SF v = S754_infinity s.
Proof.
  unfold is_finite. intros [Hn | Hi]%negb_false_iff%orb_true_iff.
  - left. by apply is_nan_inv.
  - right. by apply is_infinity_inv.
Qed.

Lemma not_finite_intro (v : float) :
  Prim2SF v = S754_nan \/ (exists s, Prim2SF v = S754_infinity s) ->
  is_finite v = false.
Proof.
  unfold is_finite. intros [Hn | [s Hi]].
  - by rewrite (is_nan_intro _ Hn).
  - by rewrite (is_infinity_intro _ _ Hi), orb_true_r.
Qed.

(** A finite float is a zero or a finite non-zero number. *)
Lemma is_finite_inv (v : float) :
  is_finite v = true ->
  (exists s, Prim2SF v = S754_zero s) \/ exists s m e, Prim2SF v = S754_finite s m e.
Proof.
  intros Hv. destruct (Prim2SF v) as [b|b| |b m e] eqn:E; eauto.
  - rewrite (not_finite_intro v) in Hv; [discriminate | eauto].
  - rewrite (not_finite_intro v) in Hv; [discriminate | eauto].
Qed.

Lemma mul_nan_l (a b : float) : is_nan a = true -> is_nan (a * b) = true.
Proof.
  intros Ha%is_nan_inv. apply is_nan_intro. rewrite mul_spec, Ha. reflexivity.
Qed.

Lemma mul_nan_r (a b : float) : is_nan b = true -> is_nan (a * b) = true.
Proof.
  intros Hb%is_nan_inv. apply is_nan_intro. rewrite mul_spec, Hb.
  by destruct (Prim2SF a).
Qed.

Lemma div_nan_l (a b : float) : is_nan a = true -> is_nan (a / b) = true.
Proof.
  intros Ha%is_nan_inv. apply is_nan_intro. rewrite div_spec, Ha. reflexivity.
Qed.

Lemma div_nan_r (a b : float) : is_nan b = true -> is_nan (a / b) = true.
Proof.
  intros Hb%is_nan_inv. apply is_nan_intro. rewrite div_spec, Hb.
  by destruct (Prim2SF a).
Qed.

Lemma add_nan_r (a b : float) : is_nan b = true -> is_nan (a + b) = true.
Proof.
  intros Hb%is_nan_inv. apply is_nan_intro. rewrite add_spec, Hb.
  by destruct (Prim2SF a).
Qed.

Lemma mul_not_finite_l (a b : float) :
  is_finite a = false -> is_finite (a * b) = false.
Proof.
  intros Ha%not_finite_inv. apply not_finite_intro. rewrite mul_spec.
  destruct Ha as [-> | [s ->]]; [by left|].
  destruct (Prim2SF b); simpl; eauto.
Qed.

Lemma mul_not_finite_r (a b : float) :
  is_finite b = false -> is_finite (a * b) = false.
Proof.
  intros Hb%not_finite_inv. apply not_finite_intro. rewrite mul_spec.
  destruct Hb as [-> | [s ->]]; destruct (Prim2SF a); simpl; eauto.
Qed.

Lemma add_not_finite_r (a b : float) :
  is_finite b = false -> is_finite (a + b) = false.
Proof.
  intros Hb%not_finite_inv. apply not_finite_intro. rewrite add_spec.
  destruct Hb as [-> | [s ->]]; destruct (Prim2SF a) as [b'|b'| |b' m e]; simpl; eauto;
    destruct b', s; eauto.
Qed.

(** ** binary64: degenerate rects and scales *)

(** One axis of a zero-size target: the scale is a zero, its inverse an
    infinity, and the translation NaN (it contains zero times infinity). *)
Lemma zero_target_axis (k targetSize startSize o targetPos startPos : float) :
  is_zero targetSize = true -> is_finite k = true ->
  is_zero startSize = false -> is_nan startSize = false ->
  is_zero (k * targetSize / startSize) = true
  /\ is_infinity (1 / (k * targetSize / startSize)) = true
  /\ is_nan (targetPos - startPos
             + k * (o / startSize)
               * (targetSize * (1 - 1 / (k * targetSize / startSize)))) = true.
Proof.
  intros [st Ht]%is_zero_inv Hk Hs0 Hsn.
  assert (exists sz, Prim2SF (k * targetSize / startSize) = S754_zero sz) as [sz Hscale].
  { rewrite div_spec, mul_spec, Ht.
    destruct (Prim2SF startSize) as [b|b| |b m e] eqn:Es.
    - by rewrite (is_zero_intro _ _ Es) in Hs0.
    - destruct (is_finite_inv k Hk) as [[s ->] | (s & m & e & ->)]; simpl; eauto.
    - by rewrite (is_nan_intro _ Es) in Hsn.
    - destruct (is_finite_inv k Hk) as [[s ->] | (s & m' & e' & ->)]; simpl; eauto. }
  assert (Prim2SF (1 / (k * targetSize / startSize)) = S754_infinity sz) as Hinv.
  { rewrite div_spec, Hscale. destruct sz; reflexivity. }
  split; [by apply (is_zero_intro _ sz) |].
  split; [by apply (is_infinity_intro _ sz) |].
  apply add_nan_r, mul_nan_r, is_nan_intro.
  rewrite mul_spec, sub_spec, Hinv, Ht. reflexivity.
Qed.

(** X1.  A target rect of zero width: for a finite [naturalToCloneScale] and a
    start width that is neither zero nor NaN, [scaleX] is a zero,
    [inverseScaleX] is an infinity and [x] is NaN; the same on the Y axis
    for a target of zero height. *)
Theorem getDelta_zero_size_target
    (parseTransformOrigin : string -> TransformOrigin.t float)
    (start end_ : IllusoryElement float) :
  let d := getDelta parseTransformOrigin start end_ in
  is_finite (naturalToCloneScale start) = true ->
  (is_zero (width (rect end_)) = true ->
   is_zero (width (rect start)) = false -> is_nan (width (rect start)) = false ->
     is_zero (scaleX d) = true /\ is_infinity (inverseScaleX d) = true
     /\ is_nan (x d) = true)
  /\ (is_zero (height (rect end_)) = true ->
   is_zero (height (rect start)) = false -> is_nan (height (rect start)) = false ->
     is_zero (scaleY d) = true /\ is_infinity (inverseScaleY d) = true
     /\ is_nan (y d) = true).
Proof.
  cbv zeta. intros Hk. unfold getDelta. cbn.
  split; intros Ht Hs0 Hsn; by apply zero_target_axis.
Qed.

Lemma getDelta_zero_size_target_witness :
  let d := getDelta sampleParser
             (snapshot 1 startRect64 "50px 25px" 1%float)
             (snapshot 3 {| left := 200; top := 100; width := 0; height := 0 |}%float
                "0px 0px" 1%float) in
  (is_zero (scaleX d) = true /\ is_infinity (inverseScaleX d) = true
   /\ is_nan (x d) = true)
  /\ (is_zero (scaleY d) = true /\ is_infinity (inverseScaleY d) = true
   /\ is_nan (y d) = true).
Proof.
  cbv zeta.
  destruct (getDelta_zero_size_target sampleParser
              (snapshot 1 startRect64 "50px 25px" 1%float)
              (snapshot 3 {| left := 200; top := 100; width := 0; height := 0 |}%float
                 "0px 0px" 1%float) eq_refl) as [HX HY].
  split; [apply HX | apply HY]; reflexivity.
Defined.

(** X2.  A start rect of zero width makes the translation [x] an infinity or
    NaN, whatever the other inputs are; the same for zero height and
    [y]. *)
Theorem getDelta_zero_size_start_translation
    (parseTransformOrigin : string -> TransformOrigin.t float)
    (start end_ : IllusoryElement float) :
  let d := getDelta parseTransformOrigin start end_ in
  (is_zero (width (rect start)) = true -> is_finite (x d) = false)
  /\ (is_zero (height (rect start)) = true -> is_finite (y d) = false).
Proof.
  cbv zeta. unfold getDelta. cbn.
  split; intros Hz;
    by apply add_not_finite_r, mul_not_finite_l, mul_not_finite_r, div_zero_not_finite.
Qed.

Lemma getDelta_zero_size_start_translation_witness :
  let d := getDelta sampleParser
             (snapshot 1 {| left := 0; top := 0; width := 0; height := 0 |}%float
                "50px 25px" 1%float)
             (snapshot 3 endRect64 "25px 12.5px" 1%float) in
  is_finite (x d) = false /\ is_finite (y d) = false.
Proof.
  cbv zeta.
  destruct (getDelta_zero_size_start_translation sampleParser
              (snapshot 1 {| left := 0; top := 0; width := 0; height := 0 |}%float
                 "50px 25px" 1%float)
              (snapshot 3 endRect64 "25px 12.5px" 1%float)) as [HX HY].
  split; [apply HX | apply HY]; reflexivity.
Defined.

(** X3.  A [naturalToCloneScale] that is NaN makes every field of the delta
    NaN. *)
Theorem getDelta_nan_scale
    (parseTransformOrigin : string -> TransformOrigin.t float)
    (start end_ : IllusoryElement float) :
  is_nan (naturalToCloneScale start) = true ->
  let d := getDelta parseTransformOrigin start end_ in
  is_nan (x d) = true /\ is_nan (y d) = true
  /\ is_nan (scaleX d) = true /\ is_nan (scaleY d) = true
  /\ is_nan (inverseScaleX d) = true /\ is_nan (inverseScaleY d) = true.
Proof.
  intros Hk. cbv zeta. unfold getDelta. cbn.
  repeat split.
  - by apply add_nan_r, mul_nan_l, mul_nan_l.
  - by apply add_nan_r, mul_nan_l, mul_nan_l.
  - by apply div_nan_l, mul_nan_l.
  - by apply div_nan_l, mul_nan_l.
  - by apply div_nan_r, div_nan_l, mul_nan_l.
  - by apply div_nan_r, div_nan_l, mul_nan_l.
Qed.

Lemma getDelta_nan_scale_witness :
  let d := getDelta sampleParser
             (snapshot 1 startRect64 "50px 25px" nan)
             (snapshot 3 endRect64 "25px 12.5px" 1%float) in
  is_nan (x d) = true /\ is_nan (y d) = true
  /\ is_nan (scaleX d) = true /\ is_nan (scaleY d) = true
  /\ is_nan (inverseScaleX d) = true /\ is_nan (inverseScaleY d) = true.
Proof.
  apply getDelta_nan_scale. reflexivity.
Defined.

(** ** Exact arithmetic: what the delta is, geometrically *)

















